(** * fastapi_client: the request pipeline of [ApiClient]

    A shallow embedding of [src/example/fastapi_client/api_client.py]:
    path-parameter substitution ([url.format( **path_params )]), the
    middleware chain built by [add_middleware], [send_inner] with its
    transport boundary, and [send] with its status check and decoding.

    The collaborators the module imports (the httpx transport, pydantic's
    validation, the objects stored in [path_params]) are parameters of the
    development, gathered in the class [Collaborators]. *)

From Stdlib Require Import ZArith Ascii String List Lia.
From stdpp Require Import base strings gmap.

Import ListNotations.
Local Open Scope string_scope.
Local Open Scope Z_scope.

(** ** Python exceptions *)

(** One entry of pydantic's [ValidationError.errors()]. *)
Record ErrorDetail := {
  loc : list string;
  msg : string;
  type : string
}.

(** The exceptions that travel through the pipeline.  [ApiRequestException]
    and [UnexpectedResponse] are the two classes the module imports from
    [fastapi_client.exceptions]; the others are raised by the interpreter
    and by the collaborators. *)
Inductive PyExc :=
| KeyError (key : string)
| IndexError
| ValueError
| JSONDecodeError
| ValidationError (errors : list ErrorDetail)
| OtherException (class_name : string)
    (* any other subclass of Exception: ConnectTimeout, OSError, ... *)
| OtherBaseException (class_name : string)
    (* BaseException outside Exception: KeyboardInterrupt, SystemExit, ... *)
| ApiRequestException (source : PyExc)
| UnexpectedResponse (status_code : Z) (content : string)
    (headers : list (string * string)).

Inductive ExcClass :=
| CKeyError | CIndexError | CValueError | CJSONDecodeError
| CValidationError | COther (class_name : string)
| CApiRequestException | CUnexpectedResponse.

(** [type(e)]. *)
Definition exc_class (e : PyExc) : ExcClass :=
  match e with
  | KeyError _ => CKeyError
  | IndexError => CIndexError
  | ValueError => CValueError
  | JSONDecodeError => CJSONDecodeError
  | ValidationError _ => CValidationError
  | OtherException n => COther n
  | OtherBaseException n => COther n
  | ApiRequestException _ => CApiRequestException
  | UnexpectedResponse _ _ _ => CUnexpectedResponse
  end.

(** [isinstance(e, Exception)]: what [except Exception] catches. *)
Definition is_Exception (e : PyExc) : bool :=
  match e with
  | OtherBaseException _ => false
  | _ => true
  end.

(** [isinstance(e, ValidationError)]: what [except ValidationError] catches. *)
Definition is_ValidationError (e : PyExc) : bool :=
  match e with
  | ValidationError _ => true
  | _ => false
  end.

(** ** Computations: state passing with exceptions *)

Inductive outcome (A : Type) :=
| Ok (a : A)
| Raise (e : PyExc).
Arguments Ok {A} a.
Arguments Raise {A} e.

(** A computation over a state [S] either returns or raises, and leaves a
    state behind in both cases. *)
Definition Comp (S A : Type) : Type := S -> outcome A * S.

Definition ret {S A} (a : A) : Comp S A := fun s => (Ok a, s).

Definition raise {S A} (e : PyExc) : Comp S A := fun s => (Raise e, s).

Definition bind {S A B} (c : Comp S A) (k : A -> Comp S B) : Comp S B :=
  fun s =>
    match c s with
    | (Ok a, s') => k a s'
    | (Raise e, s') => (Raise e, s')
    end.

(** [try: body  except <class> as e: handler e]. *)
Definition try_except {S A} (body : Comp S A) (catches : PyExc -> bool)
    (handler : PyExc -> Comp S A) : Comp S A :=
  fun s =>
    match body s with
    | (Ok a, s') => (Ok a, s')
    | (Raise e, s') => if catches e then handler e s' else (Raise e, s')
    end.

(** An expression that may raise but touches no state. *)
Definition eval {S A} (o : outcome A) : Comp S A := fun s => (o, s).

Declare Scope comp_scope.
Delimit Scope comp_scope with comp.
Notation "x <- c ;; k" := (bind c (fun x => k))
  (at level 100, c at next level, right associativity) : comp_scope.

(** ** [str.format] with keyword arguments only

    [url.format( **path_params )] is the interpreter's formatter called
    with an empty tuple of positional arguments.  The model follows
    CPython's [MarkupIterator_next] and [parse_field]: the template is
    read once from the left; [{{] and [}}] are literal braces, a
    replacement field runs from [{] to its closing [}] and holds a field
    name, an optional [!conversion] and an optional [:format_spec]. *)

Inductive markup :=
| Lit (c : ascii)
| Field (field_name : string) (conversion : option ascii)
    (format_spec : string).

Inductive scan_state :=
| InText
| SeenOpen                       (* a '{' was read in literal text *)
| SeenClose                      (* a '}' was read in literal text *)
| InFieldName (name : string)
| InBracket (name : string)      (* inside [...] of a field name *)
| WantConversion (name : string) (* a '!' was read *)
| AfterConversion (name : string) (conv : ascii)
| InFormatSpec (name : string) (conv : option ascii) (spec : string)
    (count : nat).               (* count: braces still open *)

Inductive step_result :=
| Continue (st : scan_state)
| Emit (m : markup) (st : scan_state)
| Stop (e : PyExc).

Definition snoc (s : string) (c : ascii) : string := s +:+ String c "".

Definition is_char (c : ascii) (d : string) : bool :=
  bool_decide (String c "" = d).

(** The loop of [parse_field] that reads the field name. *)
Definition field_name_step (name : string) (c : ascii) : step_result :=
  if is_char c "{" then Stop ValueError
  else if is_char c "[" then Continue (InBracket (snoc name c))
  else if is_char c "}" then Emit (Field name None "") InText
  else if is_char c ":" then Continue (InFormatSpec name None "" 1)
  else if is_char c "!" then Continue (WantConversion name)
  else Continue (InFieldName (snoc name c)).

Definition step (st : scan_state) (c : ascii) : step_result :=
  match st with
  | InText =>
      if is_char c "{" then Continue SeenOpen
      else if is_char c "}" then Continue SeenClose
      else Emit (Lit c) InText
  | SeenOpen =>
      if is_char c "{" then Emit (Lit c) InText
      else field_name_step "" c
  | SeenClose =>
      if is_char c "}" then Emit (Lit c) InText
      else Stop ValueError       (* Single '}' encountered *)
  | InFieldName name => field_name_step name c
  | InBracket name =>
      if is_char c "]" then Continue (InFieldName (snoc name c))
      else Continue (InBracket (snoc name c))
  | WantConversion name => Continue (AfterConversion name c)
  | AfterConversion name conv =>
      if is_char c "}" then Emit (Field name (Some conv) "") InText
      else if is_char c ":" then Continue (InFormatSpec name (Some conv) "" 1)
      else Stop ValueError       (* expected ':' after conversion *)
  | InFormatSpec name conv spec count =>
      if is_char c "{" then
        Continue (InFormatSpec name conv (snoc spec c) (S count))
      else if is_char c "}" then
        match count with
        | 1%nat => Emit (Field name conv spec) InText
        | _ => Continue (InFormatSpec name conv (snoc spec c) (pred count))
        end
      else Continue (InFormatSpec name conv (snoc spec c) count)
  end.

(** What the end of the template means in each state. *)
Definition finish (st : scan_state) : option PyExc :=
  match st with
  | InText => None
  | _ => Some ValueError
  end.

(** The markup read from a template, and the syntax error that stopped
    the reading, if any.  The formatter renders the markup before the point
    of the error first, so an error of an earlier field wins. *)
Fixpoint scan (st : scan_state) (s : string) : list markup * option PyExc :=
  match s with
  | "" => ([], finish st)
  | String c s' =>
      match step st c with
      | Continue st' => scan st' s'
      | Emit m st' => let (ms, e) := scan st' s' in (m :: ms, e)
      | Stop e => ([], Some e)
      end
  end.

(** [field_name_split]: the first part of a field name ends at the first
    '.' or '['; what follows is the chain of attribute and index
    accesses. *)
Fixpoint field_name_split (s : string) : string * string :=
  match s with
  | "" => ("", "")
  | String c s' =>
      if is_char c "." || is_char c "[" then ("", s)
      else let (first, rest) := field_name_split s' in (String c first, rest)
  end.

Definition digit_value (c : ascii) : option Z :=
  let n := Z.of_N (N_of_ascii c) in
  if (48 <=? n) && (n <=? 57) then Some (n - 48) else None.

(** [get_integer]: the value of a non-empty all-digit string. *)
Fixpoint get_integer_from (acc : Z) (s : string) : option Z :=
  match s with
  | "" => Some acc
  | String c s' =>
      match digit_value c with
      | Some d => get_integer_from (acc * 10 + d) s'
      | None => None
      end
  end.

Definition get_integer (s : string) : option Z :=
  match s with
  | "" => None
  | _ => get_integer_from 0 s
  end.

Definition PY_SSIZE_T_MAX : Z := 2 ^ 63 - 1.

(** The names a template refers to: the first part of each field name. *)
Definition markup_names (ms : list markup) : list string :=
  flat_map (fun m =>
    match m with
    | Lit _ => []
    | Field name _ _ => [fst (field_name_split name)]
    end) ms.

Definition placeholders (template : string) : list string :=
  markup_names (fst (scan InText template)).


Definition is_brace (c : ascii) : bool := is_char c "{" || is_char c "}".

Fixpoint brace_free (s : string) : bool :=
  match s with
  | "" => true
  | String c s' => negb (is_brace c) && brace_free s'
  end.





(** *** Templates of plain placeholders *)

(** A name the formatter looks up among the keyword arguments: not empty
    and not a number. *)
Definition keyword_name (name : string) : bool :=
  match name with
  | "" => false
  | _ =>
      match get_integer name with
      | Some _ => false
      | None => true
      end
  end.




(** *** Templates put together from parts *)

(** The markup of a text without braces: its characters. *)
Fixpoint literal_markup (s : string) : list markup :=
  match s with
  | "" => []
  | String c s' => Lit c :: literal_markup s'
  end.






(** ** Requests, responses and JSON *)

(** What [json.loads] returns (numbers restricted to integers). *)
#[local] Unset Elimination Schemes.
Inductive Json :=
| JNull
| JBool (b : bool)
| JInt (n : Z)
| JString (s : string)
| JArray (items : list Json)
| JObject (members : list (string * Json)).
#[local] Set Elimination Schemes.

(** The keyword arguments [request] passes through to [AsyncRequest]. *)
Record Kwargs := {
  kw_headers : list (string * string);
  kw_params : list (string * string);
  kw_data : string
}.

(** An [AsyncRequest] object, by what the stages and the transport read
    from it.  How the constructor turns its arguments into such an object,
    and when it refuses them, is a matter of httpx and a parameter below. *)
Record AsyncRequest := {
  method : string;
  url : string;
  headers : list (string * string);
  params : list (string * string);
  data : string
}.

(** An [AsyncResponse] as the pipeline sees it.  [json] is the result of
    [response.json()]: [None] when the body is not a JSON text and the
    call raises [JSONDecodeError]. *)
Record AsyncResponse := {
  status_code : Z;
  response_headers : list (string * string);
  response_content : string;
  json : option Json
}.

Definition response_json {S} (response : AsyncResponse) : Comp S Json :=
  match json response with
  | Some j => ret j
  | None => raise JSONDecodeError
  end.

(** [starlette.status.HTTP_200_OK]. *)
Definition HTTP_200_OK : Z := 200.

(** Modelled from the spec: [UnexpectedResponse.for_response] is defined in
    [fastapi_client.exceptions], which is not part of the sources; the
    error carries "the status code and response body/headers". *)
Definition UnexpectedResponse_for_response (response : AsyncResponse)
    : PyExc :=
  UnexpectedResponse (status_code response) (response_content response)
    (response_headers response).

(** The transport: an object with one operation, [send]. *)
Record AsyncClient (W : Type) := {
  AsyncClient_send : AsyncRequest -> Comp W AsyncResponse
}.
Arguments AsyncClient_send {W} _ _.

(** ** The collaborators *)

Class Collaborators := {
  (** the state of everything outside the client: the network, and what
      the transport and the middleware stages keep for themselves *)
  World : Type;
  (** the objects stored in [path_params] *)
  PyVal : Type;
  (** what the formatter does with the object it found for a field: the
      attribute and index accesses of the field name, the conversion, the
      expansion of the format spec and [format(obj, spec)] *)
  format_field :
    gmap string PyVal -> PyVal -> string -> option ascii -> string ->
    outcome string;
  (** the values [type_] ranges over, [None] among them *)
  TypeDesc : Type;
  NoneType : TypeDesc;
  (** the decoded values *)
  Model : Type;
  (** [_ResultMaker[type_](result=j).result]: the validated value, or the
      errors of the [ValidationError] pydantic raises *)
  validate : TypeDesc -> Json -> list ErrorDetail + Model;
  (** [AsyncClient()] *)
  AsyncClient_new : AsyncClient World;
  (** [AsyncRequest(method, url, **kwargs)]: the request httpx builds, or
      the exception it raises, such as [InvalidURL] for a URL without
      scheme or host *)
  AsyncRequest_init : string -> string -> Kwargs -> outcome AsyncRequest
}.

Section Pipeline.

Context `{Collaborators}.

Local Open Scope comp_scope.

(** *** Substitution *)

(** [get_field_object], up to the lookup of the first part of the name.
    With no positional argument an empty or numeric name has nothing to
    index. *)
Definition get_field_object (kwargs : gmap string PyVal)
    (field_name : string) : outcome (PyVal * string) :=
  let (first, rest) := field_name_split field_name in
  match first with
  | "" => Raise IndexError
  | _ =>
      match get_integer first with
      | Some n =>
          if PY_SSIZE_T_MAX <? n then Raise ValueError else Raise IndexError
      | None =>
          match kwargs !! first with
          | Some obj => Ok (obj, rest)
          | None => Raise (KeyError first)
          end
      end
  end.

Definition render_markup (kwargs : gmap string PyVal) (m : markup)
    : outcome string :=
  match m with
  | Lit c => Ok (String c "")
  | Field field_name conversion format_spec =>
      match get_field_object kwargs field_name with
      | Ok (obj, rest) => format_field kwargs obj rest conversion format_spec
      | Raise e => Raise e
      end
  end.

(** [build_string]: the markup is rendered from the left; the syntax error
    that ended the reading is raised once everything before it went
    through. *)
Fixpoint build_string (kwargs : gmap string PyVal) (ms : list markup)
    (syntax_error : option PyExc) : outcome string :=
  match ms with
  | [] =>
      match syntax_error with
      | Some e => Raise e
      | None => Ok ""
      end
  | m :: ms' =>
      match render_markup kwargs m with
      | Ok text =>
          match build_string kwargs ms' syntax_error with
          | Ok tail => Ok (text +:+ tail)
          | Raise e => Raise e
          end
      | Raise e => Raise e
      end
  end.

(** [template.format( **kwargs )]. *)
Definition str_format (template : string) (kwargs : gmap string PyVal)
    : outcome string :=
  let (ms, syntax_error) := scan InText template in
  build_string kwargs ms syntax_error.



(** *** The client *)

Definition Send : Type := AsyncRequest -> Comp World AsyncResponse.
Definition MiddlewareT : Type :=
  AsyncRequest -> Send -> Comp World AsyncResponse.

(** [BaseMiddleware.__call__]. *)
Definition BaseMiddleware : MiddlewareT :=
  fun request call_next => call_next request.

Record ApiClient := {
  host : option string;
  middleware : MiddlewareT;
  _async_client : AsyncClient World
}.

(** [ApiClient.__init__]. *)
Definition ApiClient_init (host : option string) : ApiClient :=
  {| host := host;
     middleware := BaseMiddleware;
     _async_client := AsyncClient_new |}.

(** A method runs on the client object and the world.  The collaborators
    run on the world alone: a stage holds no reference to the client. *)
Definition Method (A : Type) : Type := Comp (ApiClient * World) A.

Definition get_self : Method ApiClient :=
  fun st => (Ok (fst st), st).

Definition set_self (self : ApiClient) : Method unit :=
  fun st => (Ok tt, (self, snd st)).

Definition lift {A} (c : Comp World A) : Method A :=
  fun st =>
    let (o, w) := c (snd st) in (o, (fst st, w)).

(** [self.host or ""]. *)
Definition host_or_empty (host : option string) : string :=
  match host with
  | None => ""
  | Some h => if decide (h = "") then "" else h
  end.

(** [ApiClient.send_inner], bound to [self]. *)
Definition send_inner (self : ApiClient) : Send :=
  fun request =>
    try_except
      (AsyncClient_send (_async_client self) request)
      is_Exception
      (fun e => raise (ApiRequestException e)).

(** [_ResultMaker[type_](result=j).result]. *)
Definition _ResultMaker {S} (type_ : TypeDesc) (j : Json) : Comp S Model :=
  match validate type_ j with
  | inr result => ret result
  | inl errors => raise (ValidationError errors)
  end.

(** [ApiClient.send]. *)
Definition send (request : AsyncRequest) (type_ : TypeDesc) : Method Model :=
  self <- get_self ;;
  response <- lift (middleware self request (send_inner self)) ;;
  if status_code response =? HTTP_200_OK then
    try_except
      (j <- response_json response ;; _ResultMaker type_ j)
      is_ValidationError
      (fun e => raise (ApiRequestException e))
  else raise (UnexpectedResponse_for_response response).

(** [if path_params is None: path_params = {}]. *)
Definition or_empty_dict (path_params : option (gmap string PyVal))
    : gmap string PyVal :=
  match path_params with
  | None => ∅
  | Some d => d
  end.

(** [ApiClient.request]. *)
Definition request (type_ : TypeDesc) (method url : string)
    (path_params : option (gmap string PyVal)) (kwargs : Kwargs)
    : Method Model :=
  self <- get_self ;;
  let path_params := or_empty_dict path_params in
  formatted <- eval (str_format url path_params) ;;
  let url := host_or_empty (host self) +:+ formatted in
  request <- eval (AsyncRequest_init method url kwargs) ;;
  send request type_.

(** [ApiClient.request_sync]: the event loop runs [request] to its end. *)
Definition request_sync (type_ : TypeDesc) (method url : string)
    (path_params : option (gmap string PyVal)) (kwargs : Kwargs)
    : Method Model :=
  request type_ method url path_params kwargs.

(** The closure [new_middleware] of [add_middleware]: it holds the stage
    being added and the head it found. *)
Definition new_middleware (middleware current_middleware : MiddlewareT)
    : MiddlewareT :=
  fun request call_next =>
    let inner_send : Send :=
      fun request => current_middleware request call_next in
    middleware request inner_send.

(** [ApiClient.add_middleware]. *)
Definition add_middleware (stage : MiddlewareT) : Method unit :=
  self <- get_self ;;
  let current_middleware := middleware self in
  set_self {| host := host self;
              middleware := new_middleware stage current_middleware;
              _async_client := _async_client self |}.

End Pipeline.

(** ** Stages that leave a mark

    A stage that appends its name to the headers of the request it
    forwards and to the headers of the response it returns; the order of
    the marks shows the order in which the stages saw the two. *)

Section Stages.

Context `{Collaborators}.

Local Open Scope comp_scope.

Definition mark_request (name : string) (request : AsyncRequest)
    : AsyncRequest :=
  {| method := method request; url := url request;
     headers := (headers request ++ [("x-seen-by", name)])%list;
     params := params request; data := data request |}.

Definition mark_response (name : string) (response : AsyncResponse)
    : AsyncResponse :=
  {| status_code := status_code response;
     response_headers :=
       (response_headers response ++ [("x-seen-by", name)])%list;
     response_content := response_content response;
     json := json response |}.

Definition marking_stage (name : string) : MiddlewareT :=
  fun request call_next =>
    response <- call_next (mark_request name request) ;;
    ret (mark_response name response).

(** [for stage in stages: client.add_middleware(stage)]. *)
Fixpoint add_each (stages : list MiddlewareT) : Method unit :=
  match stages with
  | [] => ret tt
  | stage :: stages' => _ <- add_middleware stage ;; add_each stages'
  end.

(** A stage that gives the same result whatever [call_next] it is handed:
    it answers by itself, as a cache or a stub does. *)
Definition ignores_call_next (stage : MiddlewareT) : Prop :=
  forall request (next1 next2 : Send) w,
    stage request next1 w = stage request next2 w.

End Stages.

(** ** Sample collaborators

    A world that records the requests the network has seen, [str] path
    parameters, and a small validator.  They give the examples below
    something to run on. *)

Module Sample.

(** [format_field] for [str] objects in a plain field: [{name}] renders
    the string itself, as does [{name!s}]; the other field forms are
    refused here. *)
Definition str_format_field (kwargs : gmap string string) (obj : string)
    (rest : string) (conversion : option ascii) (format_spec : string)
    : outcome string :=
  match rest, format_spec with
  | "", "" =>
      match conversion with
      | None => Ok obj
      | Some c => if is_char c "s" then Ok obj else Raise ValueError
      end
  | _, _ => Raise ValueError
  end.

Inductive type_desc :=
| TNone
| TInt
| TAny.

Definition type_error (message kind : string) : list ErrorDetail :=
  [ {| loc := ["result"]; msg := message; type := kind |} ].

Definition none_error : list ErrorDetail :=
  type_error "none is not an allowed value" "type_error.none.not_allowed".

Definition int_error : list ErrorDetail :=
  type_error "value is not a valid integer" "type_error.integer".

(** [int(s)] for a [str]: blanks around, a sign, decimal digits with
    single underscores between them. *)
Inductive int_state :=
| Leading
| Signed (negative : bool)
| Digits (negative : bool) (value : Z)
| Underscore (negative : bool) (value : Z)
| Trailing (negative : bool) (value : Z).

Definition is_blank (c : ascii) : bool :=
  let n := N_of_ascii c in
  ((9 <=? n) && (n <=? 13) || (28 <=? n) && (n <=? 32))%N.

Definition signed_value (negative : bool) (value : Z) : Z :=
  if negative then - value else value.

Fixpoint int_of_str_from (st : int_state) (s : string) : option Z :=
  match s with
  | "" =>
      match st with
      | Digits negative value | Trailing negative value =>
          Some (signed_value negative value)
      | _ => None
      end
  | String c s' =>
      match st, digit_value c with
      | Leading, Some d => int_of_str_from (Digits false d) s'
      | Leading, None =>
          if is_blank c then int_of_str_from Leading s'
          else if is_char c "+" then int_of_str_from (Signed false) s'
          else if is_char c "-" then int_of_str_from (Signed true) s'
          else None
      | Signed negative, Some d => int_of_str_from (Digits negative d) s'
      | Signed _, None => None
      | Digits negative value, Some d =>
          int_of_str_from (Digits negative (value * 10 + d)) s'
      | Digits negative value, None =>
          if is_char c "_" then int_of_str_from (Underscore negative value) s'
          else if is_blank c then int_of_str_from (Trailing negative value) s'
          else None
      | Underscore negative value, Some d =>
          int_of_str_from (Digits negative (value * 10 + d)) s'
      | Underscore _ _, None => None
      | Trailing negative value, _ =>
          if is_blank c then int_of_str_from (Trailing negative value) s'
          else None
      end
  end.

Definition int_of_str (s : string) : option Z := int_of_str_from Leading s.

(** A validator in the manner of pydantic, for three descriptors.  An
    integer field takes what [int()] takes: an integer, a boolean, the
    text of an integer. *)
Definition sample_validate (t : type_desc) (j : Json)
    : list ErrorDetail + Json :=
  match t, j with
  | TAny, _ => inr j
  | TNone, JNull => inr JNull
  | TNone, _ => inl (type_error "value is not None" "type_error.not_none")
  | TInt, JNull => inl none_error
  | TInt, JInt n => inr (JInt n)
  | TInt, JBool b => inr (JInt (if b then 1 else 0))
  | TInt, JString s =>
      match int_of_str s with
      | Some n => inr (JInt n)
      | None => inl int_error
      end
  | TInt, _ => inl int_error
  end.

(** A constructor of requests in the manner of httpx: the method in upper
    case, the characters a URI cannot hold percent-encoded, and
    [InvalidURL] for a URL without scheme or host. *)
Definition is_alpha (c : ascii) : bool :=
  let n := N_of_ascii c in
  ((65 <=? n) && (n <=? 90) || (97 <=? n) && (n <=? 122))%N.

Definition is_digit (c : ascii) : bool :=
  let n := N_of_ascii c in ((48 <=? n) && (n <=? 57))%N.

Definition upper_char (c : ascii) : ascii :=
  let n := N_of_ascii c in
  if ((97 <=? n) && (n <=? 122))%N then ascii_of_N (n - 32) else c.

Fixpoint upper (s : string) : string :=
  match s with
  | "" => ""
  | String c s' => String (upper_char c) (upper s')
  end.

Definition uri_char (c : ascii) : bool :=
  is_alpha c || is_digit c
  || existsb (is_char c)
       ["-"; "."; "_"; "~"; ":"; "/"; "?"; "#"; "["; "]"; "@"; "!"; "$";
        "&"; "'"; "("; ")"; "*"; "+"; ","; ";"; "="; "%"].

Definition hex_digit (n : N) : ascii :=
  ascii_of_N (if (n <? 10)%N then 48 + n else 55 + n).

Fixpoint percent_encode (s : string) : string :=
  match s with
  | "" => ""
  | String c s' =>
      if uri_char c then String c (percent_encode s')
      else
        let n := N_of_ascii c in
        String "%" (String (hex_digit (n / 16))
          (String (hex_digit (n mod 16)) (percent_encode s')))
  end.

(** What follows the colon that ends the scheme. *)
Fixpoint after_scheme (s : string) : option string :=
  match s with
  | "" => None
  | String c s' =>
      if is_char c ":" then Some s'
      else if is_alpha c || is_digit c
              || is_char c "+" || is_char c "-" || is_char c "."
      then after_scheme s'
      else None
  end.

Definition has_scheme_and_host (url : string) : bool :=
  match url with
  | "" => false
  | String c s =>
      is_alpha c
      && match after_scheme s with
         | Some (String a (String b (String h _))) =>
             is_char a "/" && is_char b "/"
             && negb (is_char h "/" || is_char h "?" || is_char h "#"
                      || is_char h ":")
         | _ => false
         end
  end.

Definition sample_request_init (method url : string) (kwargs : Kwargs)
    : outcome AsyncRequest :=
  if has_scheme_and_host url then
    Ok {| method := upper method;
          url := percent_encode url;
          headers := kw_headers kwargs;
          params := kw_params kwargs;
          data := kw_data kwargs |}
  else Raise (OtherException "InvalidURL").

(** The network records each request it is sent. *)
Definition Network : Type := list AsyncRequest.

(** A transport whose server answers every request with [response]. *)
Definition answering (response : AsyncResponse) : AsyncClient Network :=
  {| AsyncClient_send := fun request seen =>
       (Ok response, (seen ++ [request])%list) |}.

(** A transport that never gets a response. *)
Definition failing (e : PyExc) : AsyncClient Network :=
  {| AsyncClient_send := fun request seen =>
       (Raise e, (seen ++ [request])%list) |}.

Definition collaborators : Collaborators :=
  {| World := Network;
     PyVal := string;
     format_field := str_format_field;
     TypeDesc := type_desc;
     NoneType := TNone;
     Model := Json;
     validate := sample_validate;
     AsyncClient_new := failing (OtherException "ConnectError");
     AsyncRequest_init := sample_request_init |}.

Definition no_kwargs : Kwargs :=
  {| kw_headers := []; kw_params := []; kw_data := "" |}.

Definition response_with (status : Z) (body : string) (j : option Json)
    : AsyncResponse :=
  {| status_code := status; response_headers := [];
     response_content := body; json := j |}.

(** A client of the sample world with the given host and transport and no
    stage added. *)
Definition client (h : option string) (transport : AsyncClient Network)
    : @ApiClient collaborators :=
  @Build_ApiClient collaborators h (@BaseMiddleware collaborators) transport.

Definition get_pet : AsyncRequest :=
  {| method := "GET"; url := "https://api.example.com/pets/42";
     headers := []; params := []; data := "" |}.

(** The JSON text of a string: the string between quotation marks. *)
Definition quoted (s : string) : string :=
  String (ascii_of_N 34) (s +:+ String (ascii_of_N 34) "").

Definition string_response (s : string) : AsyncResponse :=
  response_with 200 (quoted s) (Some (JString s)).

Definition null_response : AsyncResponse :=
  response_with 200 "null" (Some JNull).

(** A stage that answers every request from a cache. *)
Definition cached_stage (response : AsyncResponse)
    : @MiddlewareT collaborators :=
  fun _ _ seen => (Ok response, seen).

Definition pet_42 : AsyncResponse :=
  response_with 200 "42" (Some (JInt 42)).

End Sample.

(** * Properties *)

Section Properties.

Context `{Collaborators}.

Implicit Types (self : ApiClient) (w : World) (request : AsyncRequest)
  (response : AsyncResponse).

(** [send] by cases on what the chain head does. *)
Lemma send_cases self w request (type_ : TypeDesc) :
  send request type_ (self, w) =
  match middleware self request (send_inner self) w with
  | (Raise e, w') => (Raise e, (self, w'))
  | (Ok response, w') =>
      if status_code response =? HTTP_200_OK then
        match json response with
        | None => (Raise JSONDecodeError, (self, w'))
        | Some j =>
            match validate type_ j with
            | inr result => (Ok result, (self, w'))
            | inl errors =>
                (Raise (ApiRequestException (ValidationError errors)),
                 (self, w'))
            end
        end
      else (Raise (UnexpectedResponse_for_response response), (self, w'))
  end.
Proof.
  unfold send, bind, get_self, lift. simpl.
  destruct (middleware self request (send_inner self) w) as [[response|e] w'];
    [|reflexivity].
  destruct (status_code response =? HTTP_200_OK); [|reflexivity].
  unfold try_except, bind, response_json, _ResultMaker.
  destruct (json response) as [j|]; simpl; [|reflexivity].
  destruct (validate type_ j); reflexivity.
Qed.

(** C1, as the code has it: when the chain head returns a response with
    status code 200 whose body parses as JSON and validates against
    [type_], [send] returns the value the validator made of the parsed
    body: the [result] field of the wrapper model, typed by [type_].  It
    is the parsed body as validated, coerced where the validator coerces,
    and not the parsed body as it came. *)
Theorem send_returns_validated_result
    self w request (type_ : TypeDesc) response w' j result :
  middleware self request (send_inner self) w = (Ok response, w') ->
  status_code response = 200 ->
  json response = Some j ->
  validate type_ j = inr result ->
  send request type_ (self, w) = (Ok result, (self, w')).
Proof.
  intros Hchain Hstatus Hjson Hvalid.
  rewrite send_cases, Hchain, Hstatus, Hjson, Hvalid. reflexivity.
Qed.

(** C2: when the chain head returns a response whose status code is not
    200, whatever it is, [send] raises the [UnexpectedResponse] built from
    that response, with its status code; neither the parsed body nor the
    validator takes part in the result. *)
Theorem send_raises_unexpected_response
    self w request (type_ : TypeDesc) response w' :
  middleware self request (send_inner self) w = (Ok response, w') ->
  status_code response <> 200 ->
  send request type_ (self, w) =
    (Raise (UnexpectedResponse (status_code response)
              (response_content response) (response_headers response)),
     (self, w')).
Proof.
  intros Hchain Hstatus.
  rewrite send_cases, Hchain.
  destruct (Z.eqb_spec (status_code response) HTTP_200_OK) as [Heq|_];
    [contradiction|reflexivity].
Qed.

(** C7, as the code has it: when the chain head returns a response with
    status code 200 whose body parses as JSON and the validator rejects
    the parsed body, [send] raises [ApiRequestException] around the
    [ValidationError] with the validator's errors, and returns no value.
    What the validator takes, coerced or not, is not rejected. *)
Theorem send_raises_validation_error
    self w request (type_ : TypeDesc) response w' j errors :
  middleware self request (send_inner self) w = (Ok response, w') ->
  status_code response = 200 ->
  json response = Some j ->
  validate type_ j = inl errors ->
  send request type_ (self, w) =
    (Raise (ApiRequestException (ValidationError errors)), (self, w'))
  /\ forall result, fst (send request type_ (self, w)) <> Ok result.
Proof.
  intros Hchain Hstatus Hjson Hvalid.
  assert (Hsend : send request type_ (self, w) =
    (Raise (ApiRequestException (ValidationError errors)), (self, w'))).
  { rewrite send_cases, Hchain, Hstatus, Hjson, Hvalid. reflexivity. }
  split; [exact Hsend|].
  intros result. rewrite Hsend. discriminate.
Qed.

(** C3, as the code has it: an [Exception] raised by the transport leaves
    [send_inner] as [ApiRequestException] around it; [send] hands on
    whatever the chain head raises, and does so for every validator and
    with no response to decode; with no stage added this is the wrapped
    transport failure.  Its class differs from that of
    [UnexpectedResponse] and is the class of the validation failure; the
    two are told apart by the exception they wrap. *)
Theorem transport_failure_is_wrapped
    self w request (type_ : TypeDesc) e w' :
  AsyncClient_send (_async_client self) request w = (Raise e, w') ->
  is_Exception e = true ->
  send_inner self request w = (Raise (ApiRequestException e), w')
  /\ (forall x w1,
        middleware self request (send_inner self) w = (Raise x, w1) ->
        send request type_ (self, w) = (Raise x, (self, w1)))
  /\ (middleware self = BaseMiddleware ->
        send request type_ (self, w) =
          (Raise (ApiRequestException e), (self, w')))
  /\ (forall status content hdrs,
        exc_class (ApiRequestException e)
        <> exc_class (UnexpectedResponse status content hdrs))
  /\ (forall errors,
        exc_class (ApiRequestException e)
        = exc_class (ApiRequestException (ValidationError errors)))
  /\ (is_ValidationError e = false ->
        forall errors,
          ApiRequestException e
          <> ApiRequestException (ValidationError errors)).
Proof.
  intros Htransport Hexc.
  assert (Hinner :
    send_inner self request w = (Raise (ApiRequestException e), w')).
  { unfold send_inner, try_except. rewrite Htransport, Hexc. reflexivity. }
  repeat split.
  - exact Hinner.
  - intros x w1 Hchain. rewrite send_cases, Hchain. reflexivity.
  - intros Hbase. rewrite send_cases, Hbase. unfold BaseMiddleware.
    rewrite Hinner. reflexivity.
  - discriminate.
  - intros Hnot errors Heq. injection Heq as ->. discriminate.
Qed.

(** C8, as the code has it: [send] has no branch for [type_ = None].  On
    a response with status code 200 whose body parses as JSON it validates
    the parsed body against the [None] descriptor as against any other,
    returns the validator's value when there is one, and raises
    [ApiRequestException] around the validation error otherwise. *)
Theorem send_none_type_validates_body self w request response w' j :
  middleware self request (send_inner self) w = (Ok response, w') ->
  status_code response = 200 ->
  json response = Some j ->
  send request NoneType (self, w) =
    match validate NoneType j with
    | inr result => (Ok result, (self, w'))
    | inl errors =>
        (Raise (ApiRequestException (ValidationError errors)), (self, w'))
    end.
Proof.
  intros Hchain Hstatus Hjson.
  rewrite send_cases, Hchain, Hstatus, Hjson. reflexivity.
Qed.

(** [request] is substitution, construction of the request and [send]. *)
Lemma request_cases self w (type_ : TypeDesc) method url path_params kwargs :
  request type_ method url path_params kwargs (self, w) =
  match str_format url (or_empty_dict path_params) with
  | Raise e => (Raise e, (self, w))
  | Ok formatted =>
      match
        AsyncRequest_init method (host_or_empty (host self) +:+ formatted)
          kwargs
      with
      | Raise e => (Raise e, (self, w))
      | Ok request => send request type_ (self, w)
      end
  end.
Proof.
  unfold request, bind, get_self, eval. simpl.
  destruct (str_format url (or_empty_dict path_params)) as [formatted|e];
    [|reflexivity].
  destruct (AsyncRequest_init method _ kwargs); reflexivity.
Qed.

(** C10: [request] and [send] hand the client back as they found it,
    whether they return or raise; [add_middleware] replaces the chain head
    by the closure around the new stage and the old head, and leaves the
    host, the transport and the world alone. *)
Theorem client_configuration_frame :
  (forall self w (type_ : TypeDesc) method url path_params kwargs,
     fst (snd (request type_ method url path_params kwargs (self, w))) = self)
  /\ (forall self w request (type_ : TypeDesc),
        fst (snd (send request type_ (self, w))) = self)
  /\ (forall self w stage,
        exists self1,
          add_middleware stage (self, w) = (Ok tt, (self1, w))
          /\ host self1 = host self
          /\ _async_client self1 = _async_client self
          /\ middleware self1 = new_middleware stage (middleware self)).
Proof.
  assert (Hsend : forall self w request (type_ : TypeDesc),
            fst (snd (send request type_ (self, w))) = self).
  { intros self w request type_. rewrite send_cases.
    destruct (middleware self request (send_inner self) w)
      as [[response|e] w1]; [|reflexivity].
    destruct (status_code response =? HTTP_200_OK); [|reflexivity].
    destruct (json response) as [j|]; [|reflexivity].
    destruct (validate type_ j); reflexivity. }
  split; [|split].
  - intros self w type_ method url path_params kwargs.
    rewrite request_cases.
    destruct (str_format url (or_empty_dict path_params)); [|reflexivity].
    destruct (AsyncRequest_init method _ kwargs); [|reflexivity].
    apply Hsend.
  - exact Hsend.
  - intros self w stage.
    unfold add_middleware, bind, get_self, set_self. simpl.
    eexists. split; [reflexivity|]. simpl. repeat split.
Qed.

(** C9, as the code has it: an invocation of [request] ends in one of
    these ways.  Substitution raises, and the error reaches the caller
    before anything is built; the constructor of the request raises, as
    httpx does with [InvalidURL] for a URL without scheme or host, and the
    error reaches the caller before anything is dispatched; the chain
    head raises, and the exception reaches the caller as it is; the
    response has a status code other than 200, and [UnexpectedResponse]
    is raised; the response has status code 200 and a body that parses as
    JSON, and the caller gets the validated value or
    [ApiRequestException] around the validation error.  (A response with
    status code 200 whose body is no JSON text is the remaining case;
    nothing is stated about it.) *)
Theorem request_outcomes
    self w (type_ : TypeDesc) method url path_params kwargs :
  let out := request type_ method url path_params kwargs (self, w) in
  (exists e,
     str_format url (or_empty_dict path_params) = Raise e
     /\ out = (Raise e, (self, w)))
  \/ (exists formatted,
        str_format url (or_empty_dict path_params) = Ok formatted
        /\ let built :=
             AsyncRequest_init method
               (host_or_empty (host self) +:+ formatted) kwargs in
           (exists e, built = Raise e /\ out = (Raise e, (self, w)))
           \/ (exists request,
                 built = Ok request
                 /\ ((exists e w',
                        middleware self request (send_inner self) w
                        = (Raise e, w')
                        /\ out = (Raise e, (self, w')))
                     \/ (exists response w',
                           middleware self request (send_inner self) w
                           = (Ok response, w')
                           /\ ((status_code response <> 200
                                /\ out =
                                    (Raise
                                       (UnexpectedResponse_for_response
                                          response),
                                     (self, w')))
                               \/ (status_code response = 200
                                   /\ json response = None)
                               \/ (status_code response = 200
                                   /\ exists j,
                                        json response = Some j
                                        /\ ((exists result,
                                               validate type_ j = inr result
                                               /\ out =
                                                   (Ok result, (self, w')))
                                            \/ (exists errors,
                                                  validate type_ j
                                                  = inl errors
                                                  /\ out =
                                                      (Raise
                                                         (ApiRequestException
                                                            (ValidationError
                                                               errors)),
                                                       (self, w')))))))))).
Proof.
  intros out. subst out. rewrite request_cases.
  destruct (str_format url (or_empty_dict path_params)) as [formatted|e].
  2:{ left. exists e. split; reflexivity. }
  right. exists formatted. split; [reflexivity|]. cbv zeta.
  destruct (AsyncRequest_init method _ kwargs) as [request|e].
  2:{ left. exists e. split; reflexivity. }
  right. exists request. split; [reflexivity|].
  rewrite send_cases.
  destruct (middleware self request (send_inner self) w)
    as [[response|e] w'].
  2:{ left. exists e, w'. split; reflexivity. }
  right. exists response, w'. split; [reflexivity|].
  destruct (Z.eqb_spec (status_code response) HTTP_200_OK) as [Heq|Hne].
  2:{ left. split; [exact Hne|reflexivity]. }
  right. destruct (json response) as [j|].
  2:{ left. split; [exact Heq|reflexivity]. }
  right. split; [exact Heq|]. exists j. split; [reflexivity|].
  destruct (validate type_ j) as [errors|result].
  - right. exists errors. split; reflexivity.
  - left. exists result. split; reflexivity.
Qed.

(** The head left by [add_each]: the request goes through the stages from
    the last added to the first, the response comes back through them from
    the first added to the last. *)
Lemma add_each_marking_stages names :
  forall self w,
  exists self1,
    add_each (map marking_stage names) (self, w) = (Ok tt, (self1, w))
    /\ host self1 = host self
    /\ _async_client self1 = _async_client self
    /\ forall request call_next w0,
         middleware self1 request call_next w0 =
         bind
           (middleware self (fold_right mark_request request names) call_next)
           (fun response =>
              ret (fold_left (fun r name => mark_response name r)
                     names response))
           w0.
Proof.
  induction names as [|name names IH]; intros self w.
  - exists self. simpl. repeat split.
    intros request call_next w0. unfold bind, ret.
    destruct (middleware self request call_next w0) as [[r|e] w1];
      reflexivity.
  - destruct (IH {| host := host self;
                    middleware :=
                      new_middleware (marking_stage name) (middleware self);
                    _async_client := _async_client self |} w)
      as (self1 & Hadd & Hhost & Hclient & Hhead).
    exists self1. split; [|split; [|split]].
    + simpl. unfold bind at 1. unfold add_middleware, bind, get_self, set_self.
      simpl. exact Hadd.
    + exact Hhost.
    + exact Hclient.
    + intros request call_next w0. rewrite Hhead. simpl.
      unfold new_middleware, marking_stage, bind, ret.
      destruct (middleware self _ call_next w0) as [[r|e] w1]; reflexivity.
Qed.

(** C4: after [add_middleware(M1)] and then [add_middleware(M2)] the chain
    head is [M2] called with the request and with a [call_next] that calls
    [M1], whose own [call_next] calls the head that was there before.  So
    [M2] has the request first and gets as the result of its [call_next]
    the response [M1] returned.  For two marking stages on a fresh client
    the transport is sent the request marked by the second stage and then
    the first, and the caller gets the response marked by the first and
    then the second. *)
Theorem add_middleware_onion_order self w (M1 M2 : MiddlewareT) :
  exists self2,
    bind (add_middleware M1) (fun _ => add_middleware M2) (self, w)
    = (Ok tt, (self2, w))
    /\ (forall request call_next,
          middleware self2 request call_next =
          M2 request (fun request1 =>
            M1 request1 (fun request0 =>
              middleware self request0 call_next)))
    /\ (forall name1 name2 request call_next w0,
          M1 = marking_stage name1 ->
          M2 = marking_stage name2 ->
          middleware self = BaseMiddleware ->
          middleware self2 request call_next w0 =
          match call_next (mark_request name1 (mark_request name2 request)) w0
          with
          | (Ok response, w1) =>
              (Ok (mark_response name2 (mark_response name1 response)), w1)
          | (Raise e, w1) => (Raise e, w1)
          end).
Proof.
  unfold add_middleware, bind, get_self, set_self. simpl.
  eexists. split; [reflexivity|]. simpl. split.
  - intros request call_next. reflexivity.
  - intros name1 name2 request call_next w0 -> -> Hbase.
    unfold new_middleware, marking_stage, bind, ret. rewrite Hbase.
    unfold BaseMiddleware.
    destruct (call_next _ w0) as [[response|e] w1]; reflexivity.
Qed.

(** *** Substitution *)














End Properties.


(** * The theorems at work on the sample collaborators *)

Module Examples.

Import Sample.

(** A server answers 200 with the JSON text [42]; [send] with the integer
    descriptor returns 42. *)
Lemma send_returns_validated_result_witness :
  let response := response_with 200 "42" (Some (JInt 42)) in
  let self := client None (answering response) in
  @send collaborators get_pet TInt (self, [])
  = (Ok (JInt 42), (self, [get_pet])).
Proof.
  intros response self.
  apply (send_returns_validated_result (H := collaborators)
           self [] get_pet TInt response [get_pet] (JInt 42) (JInt 42));
    reflexivity.
Defined.

(** A server answers 404; [send] raises [UnexpectedResponse] with 404. *)
Lemma send_raises_unexpected_response_witness :
  let response := response_with 404 "not found" None in
  let self := client None (answering response) in
  @send collaborators get_pet TInt (self, [])
  = (Raise (UnexpectedResponse 404 "not found" []), (self, [get_pet])).
Proof.
  intros response self.
  apply (send_raises_unexpected_response (H := collaborators)
           self [] get_pet TInt response [get_pet]);
    [reflexivity | vm_compute; discriminate].
Defined.

(** A server answers 200 with the JSON text of the string "abc"; the
    integer descriptor rejects it. *)
Lemma send_raises_validation_error_witness :
  let response := string_response "abc" in
  let self := client None (answering response) in
  @send collaborators get_pet TInt (self, [])
  = (Raise (ApiRequestException (ValidationError int_error)),
     (self, [get_pet]))
  /\ forall result,
       fst (@send collaborators get_pet TInt (self, [])) <> Ok result.
Proof.
  intros response self.
  apply (send_raises_validation_error (H := collaborators)
           self [] get_pet TInt response [get_pet] (JString "abc") int_error);
    reflexivity.
Defined.

(** The connection times out; [send_inner] wraps the exception and [send]
    hands it on. *)
Lemma transport_failure_is_wrapped_witness :
  let e := OtherException "ConnectTimeout" in
  let self := client None (failing e) in
  @send_inner collaborators self get_pet []
  = (Raise (ApiRequestException e), [get_pet])
  /\ @send collaborators get_pet TInt (self, [])
     = (Raise (ApiRequestException e), (self, [get_pet])).
Proof.
  intros e self.
  destruct (transport_failure_is_wrapped (H := collaborators)
              self [] get_pet TInt e [get_pet] eq_refl eq_refl)
    as (Hinner & _ & Hsend & _).
  split; [exact Hinner | exact (Hsend eq_refl)].
Defined.

(** A server answers 200 with the JSON text [null]; [send] with the
    [None] descriptor returns [None]. *)
Lemma send_none_type_validates_body_witness :
  let response := response_with 200 "null" (Some JNull) in
  let self := client None (answering response) in
  @send collaborators get_pet TNone (self, [])
  = (Ok JNull, (self, [get_pet])).
Proof.
  intros response self.
  apply (send_none_type_validates_body (H := collaborators)
           self [] get_pet response [get_pet] JNull);
    reflexivity.
Defined.

(** Two marking stages, "M1" added before "M2", on a fresh client: the
    transport is sent the request marked "M2" then "M1", and the caller
    gets the response marked "M1" then "M2". *)
Lemma add_middleware_onion_order_witness :
  let response := response_with 200 "null" (Some JNull) in
  let self := client None (answering response) in
  exists self2,
    bind (add_middleware (marking_stage "M1"))
      (fun _ => add_middleware (marking_stage "M2")) (self, [])
    = (Ok tt, (self2, []))
    /\ middleware self2 get_pet (send_inner self2) []
       = (Ok (mark_response "M2" (mark_response "M1" response)),
          [mark_request "M1" (mark_request "M2" get_pet)]).
Proof.
  intros response self.
  destruct (add_middleware_onion_order (H := collaborators) self []
              (marking_stage "M1") (marking_stage "M2"))
    as (self2 & Hadd & _ & Hmarks).
  exists self2. split; [exact Hadd|].
  rewrite (Hmarks "M1" "M2" get_pet (send_inner self2) []
             eq_refl eq_refl eq_refl).
  injection Hadd as <-. reflexivity.
Defined.



(** Against C3 as stated: a connection that times out and a body the
    validator rejects both reach the caller as [ApiRequestException]; the
    transport failure and the validation failure are of one class. *)
Lemma transport_and_validation_errors_share_class :
  let timeout := OtherException "ConnectTimeout" in
  let unreachable := client None (failing timeout) in
  let rejected := client None (answering null_response) in
  exists e1 e2,
    fst (@send collaborators get_pet TInt (unreachable, [])) = Raise e1
    /\ fst (@send collaborators get_pet TInt (rejected, [])) = Raise e2
    /\ e1 = ApiRequestException timeout
    /\ e2 = ApiRequestException (ValidationError none_error)
    /\ exc_class e1 = exc_class e2.
Proof.
  intros timeout unreachable rejected.
  exists (ApiRequestException timeout),
    (ApiRequestException (ValidationError none_error)).
  repeat split.
Qed.


(** Against C1 as stated: the server answers 200 with the JSON text of
    the string "42" and [type_] is the integer descriptor; the validator
    takes the body, and [send] returns the integer 42, which is not the
    parsed body. *)
Lemma send_returns_a_coerced_value :
  let response := string_response "42" in
  let self := client None (answering response) in
  json response = Some (JString "42")
  /\ @validate collaborators TInt (JString "42") = inr (JInt 42)
  /\ @send collaborators get_pet TInt (self, [])
     = (Ok (JInt 42), (self, [get_pet]))
  /\ JInt 42 <> JString "42".
Proof.
  intros response self. repeat split. discriminate.
Qed.

(** Against C7 as stated: the server answers 200 with the JSON text of
    the string "7", which is no integer; [send] raises nothing and
    returns the integer 7: the body was coerced without a word. *)
Lemma send_coerces_without_error :
  let response := string_response "7" in
  let self := client None (answering response) in
  json response = Some (JString "7")
  /\ @send collaborators get_pet TInt (self, [])
     = (Ok (JInt 7), (self, [get_pet]))
  /\ (forall e,
        fst (@send collaborators get_pet TInt (self, [])) <> Raise e).
Proof.
  intros response self. repeat split. discriminate.
Qed.

(** Against C8 as stated: the server answers 200 with an empty body and
    [type_] is [None]; [send] raises [JSONDecodeError] and returns
    nothing. *)
Lemma send_none_type_reads_the_body :
  let response := response_with 200 "" None in
  let self := client None (answering response) in
  middleware self get_pet (send_inner self) [] = (Ok response, [get_pet])
  /\ status_code response = 200
  /\ @send collaborators get_pet (@NoneType collaborators) (self, [])
     = (Raise JSONDecodeError, (self, [get_pet])).
Proof.
  intros response self. repeat split.
Qed.

(** Against C9 as stated: a template whose placeholder has no value makes
    [request] raise [KeyError], which is neither [ApiRequestException] nor
    [UnexpectedResponse]. *)
Lemma request_raises_key_error :
  let self := client None (answering null_response) in
  exists e,
    @request collaborators TAny "GET" "/pets/{id}" None no_kwargs (self, [])
    = (Raise e, (self, []))
    /\ e = KeyError "id"
    /\ exc_class e <> CApiRequestException
    /\ exc_class e <> CUnexpectedResponse.
Proof.
  intros self. exists (KeyError "id").
  split; [vm_compute; reflexivity|]. repeat split; discriminate.
Qed.

End Examples.

(** * Further properties of the pipeline *)

Section Decoding.

Context `{Collaborators}.

Implicit Types (self : ApiClient) (w : World) (request : AsyncRequest)
  (response : AsyncResponse).

(** X1: a value [send] returns always comes from a response with status
    code 200 whose parsed body the validator turned into that value. *)
Theorem send_returns_only_validated
    self w request (type_ : TypeDesc) result st :
  send request type_ (self, w) = (Ok result, st) ->
  exists response w' j,
    middleware self request (send_inner self) w = (Ok response, w')
    /\ status_code response = 200
    /\ json response = Some j
    /\ validate type_ j = inr result
    /\ st = (self, w').
Proof.
  rewrite send_cases.
  destruct (middleware self request (send_inner self) w)
    as [[response|e] w'] eqn:Hchain; [|discriminate].
  destruct (Z.eqb_spec (status_code response) HTTP_200_OK) as [Hstatus|_];
    [|discriminate].
  destruct (json response) as [j|] eqn:Hjson; [|discriminate].
  destruct (validate type_ j) as [errors|result0] eqn:Hvalid; [discriminate|].
  intros [= <- <-]. exists response, w', j. auto.
Qed.

(** [send_inner] by cases on what the transport does. *)
Lemma send_inner_cases self w request :
  send_inner self request w =
  match AsyncClient_send (_async_client self) request w with
  | (Ok response, w') => (Ok response, w')
  | (Raise e, w') =>
      (Raise (if is_Exception e then ApiRequestException e else e), w')
  end.
Proof.
  unfold send_inner, try_except, raise.
  destruct (AsyncClient_send (_async_client self) request w)
    as [[response|e] w']; [reflexivity|].
  destruct (is_Exception e); reflexivity.
Qed.

(** X2: an [Exception] that leaves [send_inner] is an
    [ApiRequestException] around the [Exception] the transport raised on
    this request; the world is as the transport left it. *)
Theorem send_inner_raises_only_wrapped self w request e w' :
  send_inner self request w = (Raise e, w') ->
  is_Exception e = true ->
  exists source,
    e = ApiRequestException source
    /\ is_Exception source = true
    /\ AsyncClient_send (_async_client self) request w = (Raise source, w').
Proof.
  rewrite send_inner_cases.
  destruct (AsyncClient_send (_async_client self) request w)
    as [[response|source] w1]; [discriminate|].
  destruct (is_Exception source) eqn:Hsource.
  - intros [= <- <-] _. exists source. auto.
  - intros [= <- <-] He. congruence.
Qed.

(** X3: a response with status code 200 whose body is no JSON text makes
    [send] raise the [JSONDecodeError] of [response.json()] as it is: the
    handler of [send] takes [ValidationError] only. *)
Theorem send_propagates_json_decode_error
    self w request (type_ : TypeDesc) response w' :
  middleware self request (send_inner self) w = (Ok response, w') ->
  status_code response = 200 ->
  json response = None ->
  send request type_ (self, w) = (Raise JSONDecodeError, (self, w'))
  /\ exc_class JSONDecodeError <> CApiRequestException.
Proof.
  intros Hchain Hstatus Hjson.
  rewrite send_cases, Hchain, Hstatus, Hjson. split; [reflexivity|discriminate].
Qed.

(** X4: with no stage added, an [Exception] raised by [send] is one of
    four: the wrapped failure of the transport, the wrapped validation
    error, [UnexpectedResponse] for a status code other than 200, or
    [JSONDecodeError]. *)
Theorem send_errors_without_stages
    self w request (type_ : TypeDesc) e st :
  middleware self = BaseMiddleware ->
  send request type_ (self, w) = (Raise e, st) ->
  is_Exception e = true ->
  (exists source w',
     AsyncClient_send (_async_client self) request w = (Raise source, w')
     /\ e = ApiRequestException source)
  \/ (exists errors, e = ApiRequestException (ValidationError errors))
  \/ (exists response,
        status_code response <> 200
        /\ e = UnexpectedResponse_for_response response)
  \/ e = JSONDecodeError.
Proof.
  intros Hbase Hsend He. rewrite send_cases, Hbase in Hsend.
  unfold BaseMiddleware in Hsend. rewrite send_inner_cases in Hsend.
  destruct (AsyncClient_send (_async_client self) request w)
    as [[response|source] w'] eqn:Htransport.
  - destruct (Z.eqb_spec (status_code response) HTTP_200_OK) as [_|Hstatus].
    + destruct (json response) as [j|].
      * destruct (validate type_ j) as [errors|result]; [|discriminate].
        injection Hsend as <- _. right. left. eauto.
      * injection Hsend as <- _. auto.
    + injection Hsend as <- _. right. right. left. eauto.
  - injection Hsend as <- _.
    destruct (is_Exception source) eqn:Hsource; [|congruence].
    left. eauto.
Qed.

(** X6: adding the pass-through stage [BaseMiddleware] changes nothing:
    the new head gives what the old head gave, and so does [send]. *)
Theorem add_base_middleware_is_neutral self w :
  exists self1,
    add_middleware BaseMiddleware (self, w) = (Ok tt, (self1, w))
    /\ (forall request call_next,
          middleware self1 request call_next
          = middleware self request call_next)
    /\ (forall request (type_ : TypeDesc) w0,
          fst (send request type_ (self1, w0))
          = fst (send request type_ (self, w0))
          /\ snd (snd (send request type_ (self1, w0)))
             = snd (snd (send request type_ (self, w0)))).
Proof.
  unfold add_middleware, bind, get_self, set_self. simpl.
  eexists. split; [reflexivity|]. split; [reflexivity|].
  intros request type_ w0. rewrite !send_cases. simpl.
  unfold new_middleware, BaseMiddleware, send_inner. simpl.
  destruct (middleware self request _ w0) as [[response|e] w1]; [|auto].
  destruct (status_code response =? HTTP_200_OK); [|auto].
  destruct (json response) as [j|]; [|auto].
  destruct (validate type_ j); auto.
Qed.

(** X7: once a stage that ignores its [call_next] has been added, what
    [send] gives no longer depends on the client it was added to: neither
    the stages added before nor the transport take part. *)
Theorem answering_stage_hides_the_rest
    (stage : MiddlewareT) self self' w w' :
  ignores_call_next stage ->
  exists self1 self1',
    add_middleware stage (self, w) = (Ok tt, (self1, w))
    /\ add_middleware stage (self', w') = (Ok tt, (self1', w'))
    /\ forall request (type_ : TypeDesc) w0,
         fst (send request type_ (self1, w0))
         = fst (send request type_ (self1', w0))
         /\ snd (snd (send request type_ (self1, w0)))
            = snd (snd (send request type_ (self1', w0))).
Proof.
  intros Hignores.
  unfold add_middleware, bind, get_self, set_self. simpl.
  eexists. eexists. split; [reflexivity|]. split; [reflexivity|].
  intros request type_ w0. rewrite !send_cases. simpl.
  unfold new_middleware.
  rewrite (Hignores request _
             (fun request0 => middleware self' request0
                (send_inner
                   {| host := host self';
                      middleware := new_middleware stage (middleware self');
                      _async_client := _async_client self' |}))).
  unfold new_middleware.
  destruct (stage request _ w0) as [[response|e] w1]; [|auto].
  destruct (status_code response =? HTTP_200_OK); [|auto].
  destruct (json response) as [j|]; [|auto].
  destruct (validate type_ j); auto.
Qed.

(** X12: an exception of the transport that is no [Exception], such as
    [KeyboardInterrupt], leaves [send_inner] as it is, and with no stage
    added it leaves [send] as it is: [except Exception] does not take
    it. *)
Theorem base_exception_is_not_wrapped
    self w request (type_ : TypeDesc) e w' :
  AsyncClient_send (_async_client self) request w = (Raise e, w') ->
  is_Exception e = false ->
  send_inner self request w = (Raise e, w')
  /\ (middleware self = BaseMiddleware ->
      send request type_ (self, w) = (Raise e, (self, w'))).
Proof.
  intros Htransport He.
  assert (Hinner : send_inner self request w = (Raise e, w')).
  { rewrite send_inner_cases, Htransport, He. reflexivity. }
  split; [exact Hinner|].
  intros Hbase. rewrite send_cases, Hbase. unfold BaseMiddleware.
  rewrite Hinner. reflexivity.
Qed.

End Decoding.

Section Templates.

Context `{Collaborators}.

Implicit Types (self : ApiClient) (w : World).





Lemma scan_brace_free s :
  brace_free s = true -> scan InText s = (literal_markup s, None).
Proof.
  induction s as [|c s IH]; cbn; [reflexivity|].
  intros Hfree. apply andb_true_iff in Hfree as [Hc Hfree].
  apply negb_true_iff in Hc. unfold is_brace in Hc.
  apply orb_false_iff in Hc as [-> ->]. rewrite (IH Hfree). reflexivity.
Qed.




Lemma build_string_literals kwargs s :
  build_string kwargs (literal_markup s) None = Ok s.
Proof.
  induction s as [|c s IH]; cbn; [reflexivity|]. rewrite IH. reflexivity.
Qed.


Lemma str_format_brace_free (template : string)
    (kwargs : gmap string PyVal) :
  brace_free template = true -> str_format template kwargs = Ok template.
Proof.
  intros Hfree. unfold str_format. rewrite (scan_brace_free _ Hfree).
  apply build_string_literals.
Qed.

(** X8: a template without braces is substituted to itself, whatever
    [path_params] holds; [request] has the request built from the host,
    or nothing, followed by the template as it is, and sends it, or
    raises the error of the constructor with nothing sent. *)
Theorem request_without_braces
    self w (type_ : TypeDesc) method url path_params kwargs :
  brace_free url = true ->
  str_format url (or_empty_dict path_params) = Ok url
  /\ request type_ method url path_params kwargs (self, w)
     = match
         AsyncRequest_init method (host_or_empty (host self) +:+ url) kwargs
       with
       | Ok request => send request type_ (self, w)
       | Raise e => (Raise e, (self, w))
       end.
Proof.
  intros Hfree.
  pose proof (str_format_brace_free url (or_empty_dict path_params) Hfree)
    as Hformat.
  split; [exact Hformat|]. rewrite request_cases, Hformat.
  destruct (AsyncRequest_init method _ kwargs); reflexivity.
Qed.

Lemma get_field_object_positional kwargs field_name :
  keyword_name (fst (field_name_split field_name)) = false ->
  exists e, get_field_object kwargs field_name = Raise e
            /\ (e = IndexError \/ e = ValueError).
Proof.
  unfold get_field_object, keyword_name.
  destruct (field_name_split field_name) as [first rest]. cbn.
  destruct first as [|c first]; [eauto|].
  destruct (get_integer (String c first)) as [n|]; [|discriminate].
  intros _. destruct (PY_SSIZE_T_MAX <? n); eauto.
Qed.

(** X9: a placeholder with an empty or numeric name, as in [{}] or [{0}],
    makes [request] raise before anything is dispatched, whatever
    [path_params] holds: the formatter looks such a name up among the
    positional arguments, and there is none. *)
Theorem request_positional_placeholder
    self w (type_ : TypeDesc) method url path_params kwargs name :
  In name (placeholders url) ->
  keyword_name name = false ->
  exists e,
    str_format url (or_empty_dict path_params) = Raise e
    /\ request type_ method url path_params kwargs (self, w)
       = (Raise e, (self, w)).
Proof.
  intros Hin Hname.
  assert (Hformat :
    exists e, str_format url (or_empty_dict path_params) = Raise e).
  { unfold placeholders in Hin. unfold str_format.
    destruct (scan InText url) as [ms err]. cbn in Hin.
    induction ms as [|m ms IH]; cbn in *; [contradiction|].
    destruct (render_markup (or_empty_dict path_params) m) as [text|e] eqn:Hm;
      [|eauto].
    assert (Htail : In name (markup_names ms)).
    { destruct m as [c|field_name conversion format_spec]; cbn in *;
        [exact Hin|].
      destruct Hin as [<-|Hin]; [|exact Hin].
      destruct (get_field_object_positional (or_empty_dict path_params)
                  field_name Hname) as (e & He & _).
      rewrite He in Hm. discriminate. }
    destruct (IH Htail) as [e ->]. eauto. }
  destruct Hformat as [e Hformat]. exists e. split; [exact Hformat|].
  rewrite request_cases, Hformat. reflexivity.
Qed.









End Templates.

Module MoreExamples.

Import Sample.

Lemma send_returns_only_validated_witness :
  let self := client None (answering pet_42) in
  exists response w' j,
    middleware self get_pet (send_inner self) [] = (Ok response, w')
    /\ status_code response = 200
    /\ json response = Some j
    /\ @validate collaborators TInt j = inr (JInt 42)
    /\ (self, [get_pet]) = (self, w').
Proof.
  intros self.
  apply (send_returns_only_validated (H := collaborators)
           self [] get_pet TInt (JInt 42) (self, [get_pet])).
  reflexivity.
Defined.

Lemma send_inner_raises_only_wrapped_witness :
  let self := client None (failing (OtherException "ConnectTimeout")) in
  exists source,
    ApiRequestException (OtherException "ConnectTimeout")
    = ApiRequestException source
    /\ is_Exception source = true
    /\ AsyncClient_send (_async_client self) get_pet []
       = (Raise source, [get_pet]).
Proof.
  intros self.
  apply (send_inner_raises_only_wrapped (H := collaborators)
           self [] get_pet
           (ApiRequestException (OtherException "ConnectTimeout"))
           [get_pet]);
    reflexivity.
Defined.

(** A server answers 200 with a page of HTML. *)
Lemma send_propagates_json_decode_error_witness :
  let response := response_with 200 "<html></html>" None in
  let self := client None (answering response) in
  @send collaborators get_pet TInt (self, [])
  = (Raise JSONDecodeError, (self, [get_pet]))
  /\ exc_class JSONDecodeError <> CApiRequestException.
Proof.
  intros response self.
  apply (send_propagates_json_decode_error (H := collaborators)
           self [] get_pet TInt response [get_pet]);
    reflexivity.
Defined.

Lemma send_errors_without_stages_witness :
  let timeout := OtherException "ConnectTimeout" in
  let self := client None (failing timeout) in
  let e := ApiRequestException timeout in
  (exists source w',
     AsyncClient_send (_async_client self) get_pet [] = (Raise source, w')
     /\ e = ApiRequestException source)
  \/ (exists errors, e = ApiRequestException (ValidationError errors))
  \/ (exists response,
        status_code response <> 200
        /\ e = UnexpectedResponse_for_response response)
  \/ e = JSONDecodeError.
Proof.
  intros timeout self e.
  apply (send_errors_without_stages (H := collaborators)
           self [] get_pet TInt e (self, [get_pet]));
    reflexivity.
Defined.

(** A cache in front of a network that is down and in front of a server
    that answers 404: the caller gets the cached pet from both. *)
Lemma answering_stage_hides_the_rest_witness :
  let down := client None (failing (OtherException "ConnectError")) in
  let lost := client None (answering (response_with 404 "" None)) in
  exists down1 lost1,
    add_middleware (cached_stage pet_42) (down, []) = (Ok tt, (down1, []))
    /\ add_middleware (cached_stage pet_42) (lost, []) = (Ok tt, (lost1, []))
    /\ fst (@send collaborators get_pet TInt (down1, [])) = Ok (JInt 42)
    /\ fst (@send collaborators get_pet TInt (lost1, [])) = Ok (JInt 42)
    /\ snd (snd (@send collaborators get_pet TInt (down1, []))) = [].
Proof.
  intros down lost.
  destruct (answering_stage_hides_the_rest (H := collaborators)
              (cached_stage pet_42) down lost [] [])
    as (down1 & lost1 & Hdown & Hlost & Hsame).
  { intros request next1 next2 w. reflexivity. }
  exists down1, lost1. split; [exact Hdown|]. split; [exact Hlost|].
  destruct (Hsame get_pet TInt []) as [Hout Hworld].
  injection Hlost as <-.
  split; [etransitivity; [exact Hout|reflexivity]|].
  split; [reflexivity|].
  etransitivity; [exact Hworld|reflexivity].
Defined.

Lemma request_without_braces_witness :
  let self := client (Some "https://api.example.com") (answering pet_42) in
  @str_format collaborators "/pets" {[ "id" := "42" ]} = Ok "/pets"
  /\ @request collaborators TInt "GET" "/pets" (Some {[ "id" := "42" ]})
       no_kwargs (self, [])
     = @send collaborators
         {| method := "GET"; url := "https://api.example.com/pets";
            headers := []; params := []; data := "" |}
         TInt (self, []).
Proof.
  intros self.
  destruct (request_without_braces (H := collaborators) self [] TInt "GET"
              "/pets" (Some {[ "id" := "42" ]}) no_kwargs eq_refl)
    as [Hformat Hrequest].
  split; [exact Hformat|].
  etransitivity; [exact Hrequest|]. vm_compute. reflexivity.
Defined.

(** The key "0" is there, and [{0}] still finds nothing. *)
Lemma request_positional_placeholder_witness :
  let self := client None (answering pet_42) in
  exists e,
    @str_format collaborators "/pets/{0}" {[ "0" := "42" ]} = Raise e
    /\ @request collaborators TInt "GET" "/pets/{0}"
         (Some {[ "0" := "42" ]}) no_kwargs (self, [])
       = (Raise e, (self, [])).
Proof.
  intros self.
  apply (request_positional_placeholder (H := collaborators) self [] TInt
           "GET" "/pets/{0}" (Some {[ "0" := "42" ]}) no_kwargs "0").
  - vm_compute. left. reflexivity.
  - vm_compute. reflexivity.
Defined.



Lemma base_exception_is_not_wrapped_witness :
  let interrupt := OtherBaseException "KeyboardInterrupt" in
  let self := client None (failing interrupt) in
  @send_inner collaborators self get_pet [] = (Raise interrupt, [get_pet])
  /\ @send collaborators get_pet TInt (self, [])
     = (Raise interrupt, (self, [get_pet])).
Proof.
  intros interrupt self.
  destruct (base_exception_is_not_wrapped (H := collaborators)
              self [] get_pet TInt interrupt [get_pet] eq_refl eq_refl)
    as [Hinner Hsend].
  split; [exact Hinner | exact (Hsend eq_refl)].
Defined.

End MoreExamples.
